(** * Leader election core of [moonrhythm/leader] (src/leader.go)

    A shallow embedding of the package: its package-level variables become a
    record, the [Operation] interface becomes a type class whose methods
    thread the backend's state, and the functions of the package become
    computations in a small state-and-trace monad.  The trace records every
    call the package makes on the backend, with the values the backend
    returned, and every goroutine it starts for [OnLeadChanged]. *)

From Stdlib Require Import ZArith List Strings.String Strings.Ascii Strings.Byte Bool Lia.
Import ListNotations.

Local Open Scope string_scope.
Local Open Scope Z_scope.

(** ** Time

    The standard library's [time.Time] and [time.Duration], as far as
    [tryAcquire] uses them: [lastBeat.Add(Timeout)] and [now.After(...)].
    The package [time] belongs to Go, not to this repository; its
    definitions below follow its source (time/time.go), integers of a fixed
    width being integers with their wrap-around written out. *)
Module time.

(** [type Duration int64], a count of nanoseconds. *)
Definition Duration := Z.
Definition Nanosecond : Duration := 1.
Definition Second : Duration := 1000000000 * Nanosecond.

(** The value an int64 computation leaves: the result wrapped into
    [-2^63, 2^63). *)
Definition int64 (z : Z) : Z := (z + 2 ^ 63) mod 2 ^ 64 - 2 ^ 63.

(** Seconds from year 1 to year 1885, the origin of the packed seconds. *)
Definition wallToInternal : Z :=
  (1884 * 365 + 1884 / 4 - 1884 / 100 + 1884 / 400) * 86400.

(** [type Time struct { wall uint64; ext int64; loc *Location }], by the two
    layouts the top bit [hasMonotonic] of [wall] selects.  With the bit set,
    [wall] packs 33 bits of seconds since 1885 ([wsec]) and 30 bits of
    nanoseconds, and [ext] is a monotonic clock reading in nanoseconds.  With
    the bit clear, [wall] holds the nanoseconds and [ext] the seconds since
    year 1.  The location plays no part in [Add] and [After]. *)
Inductive Time :=
| Mono (wsec nsec ext : Z)
| Wall (nsec ext : Z).

(** [func (t *Time) nsec() int32] *)
Definition nsec (t : Time) : Z :=
  match t with Mono _ n _ | Wall n _ => n end.

(** [func (t *Time) sec() int64] *)
Definition sec (t : Time) : Z :=
  match t with
  | Mono w _ _ => wallToInternal + w
  | Wall _ e => e
  end.

(** [func (t *Time) stripMono()] *)
Definition stripMono (t : Time) : Time :=
  match t with
  | Mono w n _ => Wall n (wallToInternal + w)
  | Wall _ _ => t
  end.

(** [t.wall = t.wall&^nsecMask | uint64(nsec)] *)
Definition set_nsec (n : Z) (t : Time) : Time :=
  match t with
  | Mono w _ e => Mono w n e
  | Wall _ e => Wall n e
  end.

(** [func (t *Time) addSec(d int64)]: the packed seconds are kept while they
    fit their 33 bits; otherwise the monotonic reading is dropped and the
    seconds are added in [ext], where a sum that overflows is replaced by
    the largest or smallest second. *)
Definition addSec (t : Time) (d : Z) : Time :=
  let add_ext (t : Time) : Time :=
    match t with
    | Wall n e =>
        let sum := int64 (e + d) in
        if Bool.eqb (e <? sum) (0 <? d) then Wall n sum
        else if 0 <? d then Wall n (2 ^ 63 - 1)
        else Wall n (- (2 ^ 63 - 1))
    | Mono _ _ _ => t
    end in
  match t with
  | Mono w n e =>
      let dsec := int64 (w + d) in
      if (0 <=? dsec) && (dsec <=? 2 ^ 33 - 1) then Mono dsec n e
      else add_ext (stripMono t)
  | Wall _ _ => add_ext t
  end.

(** [func (t Time) Add(d Duration) Time].  Go's [/] and [%] truncate towards
    zero.  A monotonic reading that would overflow is dropped. *)
Definition Add (t : Time) (d : Duration) : Time :=
  let dsec := Z.quot d 1000000000 in
  let nsec := nsec t + Z.rem d 1000000000 in
  let '(dsec, nsec) :=
    if 1000000000 <=? nsec then (dsec + 1, nsec - 1000000000)
    else if nsec <? 0 then (dsec - 1, nsec + 1000000000)
    else (dsec, nsec) in
  let t := set_nsec nsec t in
  let t := addSec t dsec in
  match t with
  | Mono w n e =>
      let te := int64 (e + d) in
      if (d <? 0) && (e <? te) || (0 <? d) && (te <? e) then stripMono t
      else Mono w n te
  | Wall _ _ => t
  end.

(** [func (t Time) After(u Time) bool]: on the monotonic readings when both
    times have one, on seconds and nanoseconds otherwise. *)
Definition After (t u : Time) : bool :=
  match t, u with
  | Mono _ _ te, Mono _ _ ue => ue <? te
  | _, _ =>
      let ts := sec t in
      let us := sec u in
      (us <? ts) || (ts =? us) && (nsec u <? nsec t)
  end.

(** The values of an int64. *)
Definition is_int64 (z : Z) : Prop := - 2 ^ 63 <= z < 2 ^ 63.






(** The wall clock read by [time.Now()]: the n-th call returns the n-th
    reading. *)
Record clock := { reading : nat -> Time; calls : nat }.

Definition Now (c : clock) : Time * clock :=
  (reading c (calls c), {| reading := reading c; calls := S (calls c) |}).

End time.

(** ** Process identity *)
Module uuid.

(** Modelled from the spec: the identifier generator
    (github.com/gofrs/uuid) is a dependency whose code is not among the
    sources; section 4.1 describes its result as "a 128-bit random value
    rendered as text".  A [UUID] is the sequence of its octets and [String]
    is the canonical rendering, lower-case hexadecimal in groups of
    4-2-2-2-6 octets separated by dashes. *)
Definition UUID := list byte.

Definition hextable : list ascii :=
  list_ascii_of_string "0123456789abcdef".

Definition hexdigit (n : N) : ascii := nth (N.to_nat n) hextable "0"%char.

Fixpoint hex_encode (src : list byte) : string :=
  match src with
  | [] => EmptyString
  | b :: rest =>
      String (hexdigit (N.div (Byte.to_N b) 16))
        (String (hexdigit (N.modulo (Byte.to_N b) 16)) (hex_encode rest))
  end.

Definition slice (u : UUID) (lo hi : nat) : list byte :=
  firstn (hi - lo) (skipn lo u).

Definition String (u : UUID) : string :=
  hex_encode (slice u 0 4) ++ "-" ++
  hex_encode (slice u 4 6) ++ "-" ++
  hex_encode (slice u 6 8) ++ "-" ++
  hex_encode (slice u 8 10) ++ "-" ++
  hex_encode (slice u 10 16).

End uuid.

(** ** The backend contract *)

(** A Go [error]: [None] is [nil]. *)
Definition error := option string.

Definition failed (err : error) : bool :=
  match err with Some _ => true | None => false end.

(** [type Operation interface]: every method may change the backend's state
    [B], which it receives and returns. *)
Class Operation (B : Type) := {
  Begin : B -> error * B;
  Commit : B -> error * B;
  Rollback : B -> error * B;
  Current : B -> (string * time.Time * time.Time * error) * B;
  TryAcquire : string -> B -> error * B
}.

(** What an observer of the package sees: the calls on [Op] with their
    results, the goroutines started on [OnLeadChanged], and the sleeps of the
    acquire loop. *)
Inductive event :=
| CallBegin (err : error)
| CallCommit (err : error)
| CallRollback (err : error)
| CallCurrent (processID : string) (lastHeartBeat now : time.Time) (err : error)
| CallTryAcquire (processID : string) (err : error)
| GoOnLeadChanged (lead : bool)
| Sleep (d : time.Duration).

Definition trace := list event.

(** ** Package state *)

(** The package-level variables.  [Op] is kept with the state of the backend
    it talks to.  [OnLeadChanged] is code of the host that runs in a
    goroutine of its own: the trace records that it was started and with which
    argument.  The mutex [mu] is not modelled, every function below runs
    alone. *)
Record pkg (B : Type) := mkPkg {
  HeartBeat : time.Duration;
  Timeout : time.Duration;
  Op : Operation B;
  processID : string;
  lead : bool;
  backend : B
}.

Arguments mkPkg {B}.
Arguments HeartBeat {B}.
Arguments Timeout {B}.
Arguments Op {B}.
Arguments processID {B}.
Arguments lead {B}.
Arguments backend {B}.

Definition with_lead {B} (l : bool) (s : pkg B) : pkg B :=
  mkPkg (HeartBeat s) (Timeout s) (Op s) (processID s) l (backend s).

Definition with_backend {B} (b : B) (s : pkg B) : pkg B :=
  mkPkg (HeartBeat s) (Timeout s) (Op s) (processID s) (lead s) b.

(** ** The monad of package code: state passing with a trace *)

Definition M (B A : Type) : Type := pkg B -> A * pkg B * trace.

Definition ret {B A} (a : A) : M B A := fun s => (a, s, []).

Definition bind {B A A'} (c : M B A) (k : A -> M B A') : M B A' :=
  fun s =>
    let '(a, s1, t1) := c s in
    let '(a', s2, t2) := k a s1 in
    (a', s2, (t1 ++ t2)%list).

Declare Scope go_scope.
Delimit Scope go_scope with go.
Notation "x <- c ;; k" := (bind c (fun x => k))
  (at level 61, c at next level, right associativity) : go_scope.
Notation "' pat <- c ;; k" := (bind c (fun x => match x with pat => k end))
  (at level 61, pat pattern, c at next level, right associativity) : go_scope.
Notation "c ;; k" := (bind c (fun _ => k))
  (at level 61, right associativity) : go_scope.

Definition result {B A} (r : A * pkg B * trace) : A := fst (fst r).
Definition final {B A} (r : A * pkg B * trace) : pkg B := snd (fst r).
Definition events {B A} (r : A * pkg B * trace) : trace := snd r.

Section Package.

Context {B : Type}.

Local Open Scope go_scope.

Definition read {A} (field : pkg B -> A) : M B A := fun s => (field s, s, []).

Definition set_lead (l : bool) : M B unit := fun s => (tt, with_lead l s, []).

(** A call on [Op]: run the method on the backend, keep its new state and
    log the call with what it returned. *)
Definition call {A} (method : Operation B -> B -> A * B) (ev : A -> event)
  : M B A :=
  fun s =>
    let '(a, b) := method (Op s) (backend s) in
    (a, with_backend b s, [ev a]).

Definition Op_Begin : M B error := call (@Begin B) CallBegin.
Definition Op_Commit : M B error := call (@Commit B) CallCommit.
Definition Op_Rollback : M B error := call (@Rollback B) CallRollback.
Definition Op_Current : M B (string * time.Time * time.Time * error) :=
  call (@Current B)
    (fun '(current, lastBeat, now, err) => CallCurrent current lastBeat now err).
Definition Op_TryAcquire (id : string) : M B error :=
  call (fun op => @TryAcquire B op id) (CallTryAcquire id).

(** [go OnLeadChanged(l)] *)
Definition go_OnLeadChanged (l : bool) : M B unit :=
  fun s => (tt, s, [GoOnLeadChanged l]).

Definition time_Sleep (d : time.Duration) : M B unit :=
  fun s => (tt, s, [Sleep d]).

(** [func ProcessID() string] *)
Definition ProcessID : M B string := read processID.

(** [func Lead() bool] *)
Definition Lead : M B bool :=
  l <- read lead ;;
  ret l.

(** [func Run(f func()) bool] *)
Definition Run (f : M B unit) : M B bool :=
  l <- Lead ;;
  (if l then f else ret tt) ;;
  ret l.

(** The closure [acquire] of [tryAcquire]. *)
Definition acquire : M B unit :=
  id <- read processID ;;
  err <- Op_TryAcquire id ;;
  if failed err then ret tt else
  err <- Op_Commit ;;
  if failed err then ret tt else
  set_lead true.

(** The three tests of [tryAcquire], named after its comments. *)
Definition no_leader (current : string) : bool := String.eqb current "".

Definition already_leader (current self : string) : bool := String.eqb current self.

Definition leader_timeout (now lastBeat : time.Time) (timeout : time.Duration)
  : bool :=
  time.After now (time.Add lastBeat timeout).

(** The statements of [tryAcquire] after [defer Op.Rollback()]. *)
Definition decide : M B unit :=
  '(current, lastBeat, now, err) <- Op_Current ;;
  if failed err then ret tt else
  self <- read processID ;;
  timeout <- read Timeout ;;
  if no_leader current then acquire
  else if already_leader current self then acquire
  else if leader_timeout now lastBeat timeout then acquire
  else ret tt.

(** [func tryAcquire()].  The deferred calls run last-registered first:
    [Op.Rollback()], whose result is dropped, and then the closure that
    compares [isLead] with [lead]. *)
Definition tryAcquire : M B unit :=
  isLead <- read lead ;;
  set_lead false ;;
  (err <- Op_Begin ;;
   if failed err then ret tt else
   decide ;;
   _ <- Op_Rollback ;;
   ret tt) ;;
  l <- read lead ;;
  if Bool.eqb isLead l then ret tt else go_OnLeadChanged l.

(** [func Acquire()] loops for ever; [Acquire n] is its first [n] rounds. *)
Fixpoint Acquire (rounds : nat) : M B unit :=
  match rounds with
  | O => ret tt
  | S n =>
      tryAcquire ;;
      d <- read HeartBeat ;;
      time_Sleep d ;;
      Acquire n
  end.

End Package.

(** ** The backend [noop]

    [type noop struct{}] holds nothing; the only part of the world it touches
    is the clock, which [Current] reads twice.

    [Current] is declared with the named results
    [(processID string, lastHeartBeat, now time.Time, err error)].  Named
    results are variables of the function, set to their zero values on entry,
    and inside the body the result [processID] hides the package-level
    variable of the same name: [return processID, ...] returns the result
    variable, which nothing has assigned.  The two calls of [time.Now()] are
    made from left to right. *)
#[export] Instance noop : Operation time.clock := {
  Begin c := (None, c);
  Rollback c := (None, c);
  Commit c := (None, c);
  Current c :=
    let processID := EmptyString in
    let '(t1, c1) := time.Now c in
    let '(t2, c2) := time.Now c1 in
    ((processID, t1, t2, None), c2);
  TryAcquire _ c := (None, c)
}.

(** ** Package initialisation

    The [var] blocks of the package: the configuration defaults, and
    [processID = uuid.Must(uuid.NewV4()).String()] where [u] is the
    identifier the generator produced. *)
Definition init (u : uuid.UUID) (c : time.clock) : pkg time.clock :=
  {| HeartBeat := 15 * time.Second;
     Timeout := 25 * time.Second;
     Op := noop;
     processID := uuid.String u;
     lead := false;
     backend := c |}.

(** The host assigns the exported variables [HeartBeat], [Timeout] and [Op]
    before it starts the loop; the unexported [processID] and [lead] are out
    of its reach. *)
Definition configure {B B'} (heartBeat timeout : time.Duration)
  (op : Operation B') (b : B') (s : pkg B) : pkg B' :=
  {| HeartBeat := heartBeat;
     Timeout := timeout;
     Op := op;
     processID := processID s;
     lead := lead s;
     backend := b |}.

(** ** Observations on traces *)

Definition is_Rollback (e : event) : bool :=
  match e with CallRollback _ => true | _ => false end.

Definition is_TryAcquire (e : event) : bool :=
  match e with CallTryAcquire _ _ => true | _ => false end.

Definition is_backend_call (e : event) : bool :=
  match e with
  | GoOnLeadChanged _ | Sleep _ => false
  | _ => true
  end.

(** How many times [Op.Rollback] was called. *)
Definition rollbacks (t : trace) : nat := List.length (filter is_Rollback t).

(** How many times [Op.TryAcquire] was called. *)
Definition writes (t : trace) : nat := List.length (filter is_TryAcquire t).

(** The calls made on [Op], in order. *)
Definition backend_calls (t : trace) : trace := filter is_backend_call t.

(** The arguments [OnLeadChanged] was started with, in order. *)
Fixpoint notified (t : trace) : list bool :=
  match t with
  | [] => []
  | GoOnLeadChanged l :: t' => l :: notified t'
  | _ :: t' => notified t'
  end.

(** Whether a logged call returned a non-nil error. *)
Definition returned_error (e : event) : bool :=
  match e with
  | CallBegin err | CallCommit err | CallRollback err
  | CallCurrent _ _ _ err | CallTryAcquire _ err => failed err
  | GoOnLeadChanged _ | Sleep _ => false
  end.

(** ** A scripted backend for the examples

    An in-memory claim with a transaction buffer and, for each method, the
    error that it returns.  It stands for an implementation of [Operation]
    supplied by the host. *)
Module fake.

Record store := mkStore {
  holder : string;
  beat : time.Time;
  clock : time.Time;
  pending : option string;
  begin_err : error;
  current_err : error;
  tryAcquire_err : error;
  commit_err : error;
  rollback_err : error
}.

Definition with_pending (p : option string) (b : store) : store :=
  mkStore (holder b) (beat b) (clock b) p (begin_err b) (current_err b)
    (tryAcquire_err b) (commit_err b) (rollback_err b).

Definition with_claim (id : string) (b : store) : store :=
  mkStore id (clock b) (clock b) None (begin_err b) (current_err b)
    (tryAcquire_err b) (commit_err b) (rollback_err b).

#[export] Instance op : Operation store := {
  Begin b := (begin_err b, b);
  Commit b :=
    (commit_err b,
     match commit_err b, pending b with
     | None, Some id => with_claim id b
     | _, _ => b
     end);
  Rollback b := (rollback_err b, with_pending None b);
  Current b := ((holder b, beat b, clock b, current_err b), b);
  TryAcquire id b :=
    (tryAcquire_err b,
     if failed (tryAcquire_err b) then b else with_pending (Some id) b)
}.

(** A store holding the claim [(h, t)] at backend time [now], without
    faults. *)
Definition healthy (h : string) (t now : time.Time) : store :=
  mkStore h t now None None None None None None.

End fake.

(** A wall-clock time, [n] seconds from an origin of the examples. *)
Definition at_second (n : Z) : time.Time := time.Wall 0 (63000000000 + n).

(** A process with identity [id] and cached flag [l], configured with the
    default intervals and the scripted backend. *)
Definition process (id : string) (l : bool) (b : fake.store) : pkg fake.store :=
  {| HeartBeat := 15 * time.Second;
     Timeout := 25 * time.Second;
     Op := fake.op;
     processID := id;
     lead := l;
     backend := b |}.

(** The scenarios of the specification, for a process "P2": no claim; a
    claim of "P1" renewed 10 s ago; a claim of "P1" renewed 30 s ago. *)
Definition vacant_claim : pkg fake.store :=
  process "P2" false (fake.healthy "" (at_second 0) (at_second 0)).

Definition fresh_claim : pkg fake.store :=
  process "P2" false (fake.healthy "P1" (at_second (-10)) (at_second 0)).

Definition stale_claim : pkg fake.store :=
  process "P2" false (fake.healthy "P1" (at_second (-30)) (at_second 0)).




(** A leader whose backend fails to read the claim, and one whose backend
    fails to commit. *)
Definition current_fails : pkg fake.store :=
  process "P2" true
    (fake.mkStore "P2" (at_second 0) (at_second 0) None None (Some "current: connection lost") None None None).

Definition commit_fails : pkg fake.store :=
  process "P2" true
    (fake.mkStore "P2" (at_second 0) (at_second 0) None None None None (Some "commit: conflict") None).

(** A process whose backend answers every call with nil except
    [Rollback]. *)
Definition rollback_fails : pkg fake.store :=
  process "P2" false
    (fake.mkStore "" (at_second 0) (at_second 0) None None None None None (Some "rollback: connection lost")).

(** ** A backend whose [Rollback] returns something else

    [Rollback_returning err op] acts on the backend as [op] does and differs
    from it only in the value its [Rollback] returns. *)
Definition Rollback_returning {B} (err : error) (op : Operation B) : Operation B :=
  {| Begin := @Begin B op;
     Commit := @Commit B op;
     Rollback b := (err, snd (@Rollback B op b));
     Current := @Current B op;
     TryAcquire := @TryAcquire B op |}.

Definition with_Op {B} (op : Operation B) (s : pkg B) : pkg B :=
  mkPkg (HeartBeat s) (Timeout s) op (processID s) (lead s) (backend s).

Definition set_Rollback_result (err : error) (e : event) : event :=
  match e with
  | CallRollback _ => CallRollback err
  | _ => e
  end.

(** ** The life of a process

    What can happen to the package state once it is initialised: a call of
    one of the package's functions, or the host assigning the exported
    variables while the backend moves on.  The action given to [Run] is code
    of the host, which cannot assign the unexported [processID]. *)
Inductive step {B : Type} : pkg B -> pkg B -> Prop :=
| step_ProcessID s :
    step s (final (ProcessID s))
| step_Lead s :
    step s (final (Lead s))
| step_Run (f : M B unit) s :
    (forall s0, processID (final (f s0)) = processID s0) ->
    step s (final (Run f s))
| step_tryAcquire s :
    step s (final (tryAcquire s))
| step_Acquire rounds s :
    step s (final (Acquire rounds s))
| step_host heartBeat timeout op b s :
    step s (configure heartBeat timeout op b s).

Inductive reachable {B : Type} (s0 : pkg B) : pkg B -> Prop :=
| reach_start : reachable s0 s0
| reach_step s s' : reachable s0 s -> step s s' -> reachable s0 s'.

(** An identifier and a clock for the examples. *)
Definition an_uuid : uuid.UUID :=
  [x6b; xa7; xb8; x10; x9d; xad; x41; xd1; x80; xb4; x00; xc0; x4f; xd4; x30; xc8].

Definition a_clock : time.clock :=
  {| time.reading :=
       fun n => time.Mono (4400000000 + Z.of_nat n) 0 (Z.of_nat n * time.Second);
     time.calls := 0 |}.

(** ** Observations on the traces of the loop *)

Definition is_Begin (e : event) : bool :=
  match e with CallBegin _ => true | _ => false end.

Definition is_Begin_ok (e : event) : bool :=
  match e with CallBegin None => true | _ => false end.

Definition is_Current (e : event) : bool :=
  match e with CallCurrent _ _ _ _ => true | _ => false end.

Definition is_Current_ok (e : event) : bool :=
  match e with CallCurrent _ _ _ None => true | _ => false end.

Definition is_TryAcquire_ok (e : event) : bool :=
  match e with CallTryAcquire _ None => true | _ => false end.

Definition is_Commit (e : event) : bool :=
  match e with CallCommit _ => true | _ => false end.

Definition is_Commit_ok (e : event) : bool :=
  match e with CallCommit None => true | _ => false end.

(** How many events of a trace satisfy [p]. *)
Definition count (p : event -> bool) (t : trace) : nat :=
  List.length (filter p t).

(** The durations the loop slept for, in order. *)
Fixpoint sleeps (t : trace) : list time.Duration :=
  match t with
  | [] => []
  | Sleep d :: t' => d :: sleeps t'
  | _ :: t' => sleeps t'
  end.

(** [alternates b l]: the first value of [l] is the opposite of [b], and
    every value of [l] is the opposite of the one before it. *)
Fixpoint alternates (b : bool) (l : list bool) : Prop :=
  match l with
  | [] => True
  | x :: l' => x = negb b /\ alternates x l'
  end.

(** The clock after [n] more readings. *)
Definition clock_after (n : nat) (c : time.clock) : time.clock :=
  {| time.reading := time.reading c; time.calls := n + time.calls c |}.

(** ** The exit paths of [tryAcquire] *)

Section Attempt.

Context {B : Type}.

(** The disjunction of the three tests, in the order [decide] makes them. *)
Definition wants_write (s : pkg B) (current : string) (lastBeat now : time.Time)
  : bool :=
  no_leader current
  || already_leader current (processID s)
  || leader_timeout now lastBeat (Timeout s).

(** [path s calls l b]: the attempt started in [s] makes the calls [calls] on
    the backend, leaves the flag at [l] and the backend in state [b].  One
    constructor per way out of [tryAcquire]. *)
Inductive path (s : pkg B) : trace -> bool -> B -> Prop :=
| path_begin_failed e b1 :
    @Begin B (Op s) (backend s) = (Some e, b1) ->
    path s [CallBegin (Some e)] false b1
| path_current_failed current lastBeat now e r b1 b2 b3 :
    @Begin B (Op s) (backend s) = (None, b1) ->
    @Current B (Op s) b1 = ((current, lastBeat, now, Some e), b2) ->
    @Rollback B (Op s) b2 = (r, b3) ->
    path s [CallBegin None; CallCurrent current lastBeat now (Some e);
            CallRollback r] false b3
| path_no_action current lastBeat now r b1 b2 b3 :
    @Begin B (Op s) (backend s) = (None, b1) ->
    @Current B (Op s) b1 = ((current, lastBeat, now, None), b2) ->
    wants_write s current lastBeat now = false ->
    @Rollback B (Op s) b2 = (r, b3) ->
    path s [CallBegin None; CallCurrent current lastBeat now None;
            CallRollback r] false b3
| path_tryAcquire_failed current lastBeat now e r b1 b2 b3 b4 :
    @Begin B (Op s) (backend s) = (None, b1) ->
    @Current B (Op s) b1 = ((current, lastBeat, now, None), b2) ->
    wants_write s current lastBeat now = true ->
    @TryAcquire B (Op s) (processID s) b2 = (Some e, b3) ->
    @Rollback B (Op s) b3 = (r, b4) ->
    path s [CallBegin None; CallCurrent current lastBeat now None;
            CallTryAcquire (processID s) (Some e); CallRollback r] false b4
| path_commit_failed current lastBeat now e r b1 b2 b3 b4 b5 :
    @Begin B (Op s) (backend s) = (None, b1) ->
    @Current B (Op s) b1 = ((current, lastBeat, now, None), b2) ->
    wants_write s current lastBeat now = true ->
    @TryAcquire B (Op s) (processID s) b2 = (None, b3) ->
    @Commit B (Op s) b3 = (Some e, b4) ->
    @Rollback B (Op s) b4 = (r, b5) ->
    path s [CallBegin None; CallCurrent current lastBeat now None;
            CallTryAcquire (processID s) None; CallCommit (Some e);
            CallRollback r] false b5
| path_acquired current lastBeat now r b1 b2 b3 b4 b5 :
    @Begin B (Op s) (backend s) = (None, b1) ->
    @Current B (Op s) b1 = ((current, lastBeat, now, None), b2) ->
    wants_write s current lastBeat now = true ->
    @TryAcquire B (Op s) (processID s) b2 = (None, b3) ->
    @Commit B (Op s) b3 = (None, b4) ->
    @Rollback B (Op s) b4 = (r, b5) ->
    path s [CallBegin None; CallCurrent current lastBeat now None;
            CallTryAcquire (processID s) None; CallCommit None;
            CallRollback r] true b5.

(** The goroutine the deferred closure starts, if any. *)
Definition notification (isLead l : bool) : trace :=
  if Bool.eqb isLead l then [] else [GoOnLeadChanged l].

End Attempt.

Ltac unfold_go :=
  cbv beta iota delta
    [tryAcquire decide acquire Run Lead ProcessID bind ret read set_lead call
     Op_Begin Op_Commit Op_Rollback Op_Current Op_TryAcquire go_OnLeadChanged
     time_Sleep result final events with_lead with_backend failed
     lead backend Op processID Timeout HeartBeat app].

(** Name the result of the next call on the backend. *)
Ltac next_call :=
  let e := fresh "err" in
  let b' := fresh "b" in
  let E := fresh "Call" in
  match goal with
  | |- context [@Begin ?B ?o ?b] =>
      destruct (@Begin B o b) as [[e|] b'] eqn:E
  | |- context [@Current ?B ?o ?b] =>
      destruct (@Current B o b) as [[[[? ?] ?] [e|]] b'] eqn:E
  | |- context [@TryAcquire ?B ?o ?i ?b] =>
      destruct (@TryAcquire B o i b) as [[e|] b'] eqn:E
  | |- context [@Commit ?B ?o ?b] =>
      destruct (@Commit B o b) as [[e|] b'] eqn:E
  | |- context [@Rollback ?B ?o ?b] =>
      destruct (@Rollback B o b) as [e b'] eqn:E
  end; unfold_go.

(** Close a case of the analysis with the constructor of its path. *)
Ltac take_path l0 :=
  do 3 eexists; split;
  [ econstructor; cbn [Op backend processID]; eassumption
  | destruct l0; reflexivity ].

(** ** Arithmetic of [time.Add] and [time.After] *)


Lemma int64_range z : time.is_int64 (time.int64 z).
Proof.
  unfold time.is_int64, time.int64.
  pose proof (Z.mod_pos_bound (z + 2 ^ 63) (2 ^ 64) ltac:(lia)). lia.
Qed.









Section AttemptFacts.

Context {B : Type}.

(** Every attempt follows one of the paths, and then starts the goroutine
    exactly when the flag differs from what it was on entry.  Nothing but the
    flag and the backend's state changes. *)
Lemma tryAcquire_path (s : pkg B) :
  exists calls l b,
    path s calls l b /\
    tryAcquire s =
      (tt, mkPkg (HeartBeat s) (Timeout s) (Op s) (processID s) l b,
       (calls ++ notification (lead s) l)%list).
Proof.
  destruct s as [hb to op id l0 b0].
  unfold_go.
  next_call; [take_path l0 |].
  next_call; [next_call; take_path l0 |].
  match goal with
  | |- context [no_leader ?c] =>
      match goal with
      | |- context [leader_timeout ?n ?lb _] =>
          destruct (wants_write (mkPkg hb to op id l0 b0) c lb n) eqn:W;
          pose proof W as W'; unfold wants_write in W'; cbn in W';
          destruct (no_leader c), (already_leader c id),
            (leader_timeout n lb to); try discriminate W'; clear W'
      end
  end; unfold_go.
  all: try (next_call; take_path l0).
  all: next_call; [next_call; take_path l0 |].
  all: next_call; [next_call; take_path l0 |].
  all: next_call; take_path l0.
Qed.

(** The same, read through the projections. *)
Lemma tryAcquire_outcome (s : pkg B) :
  exists calls l b,
    path s calls l b /\
    events (tryAcquire s) = (calls ++ notification (lead s) l)%list /\
    lead (final (tryAcquire s)) = l /\
    backend (final (tryAcquire s)) = b /\
    processID (final (tryAcquire s)) = processID s.
Proof.
  destruct (tryAcquire_path s) as (calls & l & b & P & E).
  exists calls, l, b. rewrite E. cbn. auto.
Qed.

Lemma Run_final (f : M B unit) (s : pkg B) :
  final (Run f s) = if lead s then final (f s) else s.
Proof.
  unfold Run, Lead, bind, read, ret, final. cbn.
  destruct (lead s); [| reflexivity].
  destruct (f s) as [[[] s'] t]. reflexivity.
Qed.


End AttemptFacts.

(** Split an attempt into its paths; what is known of the attempt must be in
    the goal. *)
Ltac attempt_cases s :=
  let calls := fresh "calls" in
  let l := fresh "l" in
  let b := fresh "b" in
  let P := fresh "P" in
  let Ev := fresh "Ev" in
  let Ld := fresh "Ld" in
  let Bk := fresh "Bk" in
  let Id := fresh "Id" in
  destruct (tryAcquire_outcome s) as (calls & l & b & P & Ev & Ld & Bk & Id);
  rewrite ?Ev, ?Ld, ?Bk, ?Id; clear Ev Ld Bk Id;
  inversion P; subst; clear P;
  unfold notification; destruct (lead s); cbn.

(** Use up what is known about the members of a concrete trace. *)
Ltac in_trace :=
  repeat match goal with
  | H : exists _, _ |- _ => destruct H
  | H : _ /\ _ |- _ => destruct H
  | H : _ \/ _ |- _ => destruct H
  | H : False |- _ => destruct H
  | H : _ = _ :> event |- _ => first [discriminate H | inversion H; clear H; subst]
  end.

(** Try every way of cutting a concrete trace as [pre ++ rest]. *)
Ltac split_app H :=
  repeat match type of H with
  | _ = (?pre ++ _)%list =>
      destruct pre as [|? pre]; cbn in H;
      [ try discriminate H | first [discriminate H | injection H as ? H] ]
  end.


(** * The claims *)

Section Claims.

Context {B : Type}.


(** C4. In an attempt that reaches the write step, that is, one that calls
    [Op.TryAcquire]: the call is made with the process's own identity, and
    [lead] ends true exactly when that call returned nil and the call of
    [Op.Commit] after it returned nil as well.  When [Op.TryAcquire] returns
    an error [Op.Commit] is not called, and when either returns an error
    [lead] ends false. *)
Theorem lead_iff_tryAcquire_and_commit_succeed
  (s : pkg B) (id : string) (err : error) :
  let r := tryAcquire s in
  In (CallTryAcquire id err) (events r) ->
  id = processID s /\
  (lead (final r) = true <->
   err = None /\
   exists calls rest,
     events r = (calls ++ CallTryAcquire id None :: CallCommit None :: rest)%list) /\
  (err <> None ->
   lead (final r) = false /\ forall e, ~ In (CallCommit e) (events r)) /\
  (forall e, In (CallCommit (Some e)) (events r) -> lead (final r) = false).
Proof.
  intros r. subst r.
  attempt_cases s; intros HT; in_trace;
    repeat split; intros; in_trace; try congruence; try tauto.
  all: try (exists [CallBegin None; CallCurrent current lastBeat now None];
            eexists; reflexivity).
  all: try (intro; in_trace; fail).
  all: match goal with
       | H : _ = (_ ++ _)%list |- _ => solve [split_app H]
       end.
Qed.

(** C6. An attempt starts [OnLeadChanged] once, with the value of [lead] at
    its end, when that value differs from the value of [lead] at its start,
    and does not start it when the two are equal. *)
Theorem OnLeadChanged_once_per_change (s : pkg B) :
  let r := tryAcquire s in
  notified (events r) =
    if Bool.eqb (lead s) (lead (final r)) then [] else [lead (final r)].
Proof.
  intros r. subst r.
  attempt_cases s; reflexivity.
Qed.

(** C7. When [Op.Begin] returns nil the attempt calls [Op.Rollback] exactly
    once, as its last call on the backend, whichever way the attempt goes;
    when [Op.Begin] returns an error it is the only call the attempt makes,
    so that [Op.Rollback] is not called. *)
Theorem rollback_once_iff_begin_succeeded (s : pkg B) :
  let r := tryAcquire s in
  match fst (@Begin B (Op s) (backend s)) with
  | None =>
      rollbacks (events r) = 1%nat /\
      exists calls rb,
        backend_calls (events r) =
          (CallBegin None :: calls ++ [CallRollback rb])%list /\
        rollbacks calls = 0%nat
  | Some e =>
      rollbacks (events r) = 0%nat /\
      backend_calls (events r) = [CallBegin (Some e)]
  end.
Proof.
  intros r. subst r.
  attempt_cases s;
    match goal with
    | H : Begin _ = _ |- _ => rewrite H; cbn
    end;
    split; try reflexivity.
  all: match goal with
       | |- exists calls rb, CallBegin None :: ?t = _ /\ _ =>
           exists (removelast t); eexists; split; reflexivity
       end.
Qed.

(** What [Op.Rollback] returns reaches nothing but the trace. *)
Lemma tryAcquire_Rollback_returning (err : error) (s : pkg B) :
  let r := tryAcquire s in
  tryAcquire (with_Op (Rollback_returning err (Op s)) s) =
    (tt, with_Op (Rollback_returning err (Op s)) (final r),
     map (set_Rollback_result err) (events r)).
Proof.
  destruct s as [hb to op id l0 b0].
  unfold with_Op, Rollback_returning. unfold_go. cbn.
  next_call; [destruct l0; reflexivity |].
  cbn. next_call; cbn; [next_call; cbn; destruct l0; reflexivity |].
  match goal with
  | |- context [no_leader ?c] =>
      match goal with
      | |- context [leader_timeout ?n ?lb _] =>
          destruct (no_leader c), (already_leader c id),
            (leader_timeout n lb to)
      end
  end; unfold_go; cbn.
  all: try (next_call; cbn; destruct l0; reflexivity).
  all: next_call; cbn; [next_call; cbn; destruct l0; reflexivity |].
  all: next_call; cbn; [next_call; cbn; destruct l0; reflexivity |].
  all: next_call; cbn; destruct l0; reflexivity.
Qed.

Lemma Rollback_result_dropped (err : error) (s : pkg B) :
  lead (final (tryAcquire (with_Op (Rollback_returning err (Op s)) s))) =
    lead (final (tryAcquire s)) /\
  events (tryAcquire (with_Op (Rollback_returning err (Op s)) s)) =
    map (set_Rollback_result err) (events (tryAcquire s)).
Proof.
  pose proof (tryAcquire_Rollback_returning err s) as R. cbv zeta in R.
  rewrite R. split; reflexivity.
Qed.

(** C5, as amended.  When [Op.Begin], [Op.Current], [Op.TryAcquire] or
    [Op.Commit] returns an error, no call before it in the attempt had
    failed, and the attempt is abandoned: after a failed [Op.Begin] it makes
    no further call on the backend at all, and after a failure of one of the
    other three it makes exactly one, the deferred [Op.Rollback].  The
    attempt ends with [lead] false, whatever [Op.Rollback] returns. *)
Theorem error_before_rollback_leaves_not_leader (s : pkg B) (e : event) :
  let r := tryAcquire s in
  In e (events r) ->
  returned_error e = true ->
  is_Rollback e = false ->
  lead (final r) = false /\
  (exists calls rest,
     backend_calls (events r) = (calls ++ e :: rest)%list /\
     forallb (fun c => negb (returned_error c) && negb (is_Rollback c)) calls
       = true /\
     if is_Begin e then calls = [] /\ rest = []
     else exists rb, rest = [CallRollback rb]) /\
  forall err,
    lead (final (tryAcquire (with_Op (Rollback_returning err (Op s)) s))) = false.
Proof.
  cbv zeta.
  pose proof (fun err => proj1 (Rollback_result_dropped err s)) as R1.
  setoid_rewrite R1. clear R1.
  attempt_cases s; intros HI HE HR; in_trace; cbn in HE, HR;
    try discriminate; split; try reflexivity; split; try reflexivity.
  all: try (exists []; eexists;
            split; [reflexivity | split; [reflexivity | cbn; eauto]]; fail).
  all: try (exists [CallBegin None]; eexists;
            split; [reflexivity | split; [reflexivity | cbn; eauto]]; fail).
  all: try (exists [CallBegin None; CallCurrent current lastBeat now None];
            eexists;
            split; [reflexivity | split; [reflexivity | cbn; eauto]]; fail).
  all: exists [CallBegin None; CallCurrent current lastBeat now None;
               CallTryAcquire (processID s) None];
       eexists; split; [reflexivity | split; [reflexivity | cbn; eauto]].
Qed.

(** C10. When [Op.TryAcquire] and [Op.Commit] both return nil, the attempt
    still calls [Op.Rollback], exactly once, right after [Op.Commit] and as
    its last call on the backend, and ends with [lead] true.  The value
    [Op.Rollback] returns is dropped: had it returned any other value, an
    error included, the attempt would still end with [lead] true and start
    the same goroutine. *)
Theorem rollback_after_commit_is_ignored (s : pkg B) (id : string) :
  let r := tryAcquire s in
  In (CallTryAcquire id None) (events r) ->
  In (CallCommit None) (events r) ->
  rollbacks (events r) = 1%nat /\
  (exists calls rb,
     backend_calls (events r) =
       (calls ++ [CallCommit None; CallRollback rb])%list) /\
  lead (final r) = true /\
  forall err,
    let r' := tryAcquire (with_Op (Rollback_returning err (Op s)) s) in
    In (CallRollback err) (events r') /\
    lead (final r') = true /\
    notified (events r') = notified (events r).
Proof.
  cbv zeta.
  pose proof (fun err => proj1 (Rollback_result_dropped err s)) as R1.
  pose proof (fun err => proj2 (Rollback_result_dropped err s)) as R2.
  setoid_rewrite R1. setoid_rewrite R2. clear R1 R2.
  attempt_cases s; intros HT HC; in_trace.
  all: split; [reflexivity |].
  all: split;
    [exists [CallBegin None; CallCurrent current lastBeat now None;
             CallTryAcquire (processID s) None]; eexists; reflexivity |].
  all: split; [reflexivity |].
  all: intros err; repeat split; cbn; auto 10.
Qed.

(** C8. [Run f] runs [f] exactly when the cached flag is true at the call,
    and returns that flag.  When the flag is false nothing is called and the
    state is as it was; when it is true the calls made and the changes of
    state are those of [f] alone. *)
Theorem Run_runs_iff_lead (f : M B unit) (s : pkg B) :
  Run f s =
    if lead s then (true, final (f s), events (f s)) else (false, s, []).
Proof.
  unfold Run, Lead, bind, read, ret, final, events. cbn.
  destruct (lead s); [| reflexivity].
  destruct (f s) as [[[] s'] t]. cbn. now rewrite app_nil_r.
Qed.

End Claims.

(** ** The identity of the process *)

Lemma append_not_empty (a b : string) : b <> "" -> (a ++ b)%string <> "".
Proof. destruct a; cbn; [auto | discriminate]. Qed.

Lemma uuid_String_not_empty (u : uuid.UUID) : uuid.String u <> "".
Proof.
  unfold uuid.String. apply append_not_empty. cbn. discriminate.
Qed.

Lemma length_append (a b : string) :
  String.length (a ++ b) = (String.length a + String.length b)%nat.
Proof. induction a; cbn; [reflexivity | now rewrite IHa]. Qed.

Lemma length_hex_encode (src : list byte) :
  String.length (uuid.hex_encode src) = (2 * List.length src)%nat.
Proof. induction src; cbn; [reflexivity | rewrite IHsrc; lia]. Qed.

(** The rendering of a 16-octet identifier has 36 characters. *)
Lemma uuid_String_length (u : uuid.UUID) :
  List.length u = 16%nat -> String.length (uuid.String u) = 36%nat.
Proof.
  intros L. unfold uuid.String, uuid.slice.
  rewrite !length_append, !length_hex_encode, !length_firstn, !length_skipn, L.
  reflexivity.
Qed.

Section Identity.

Context {B : Type}.

Lemma Acquire_processID (rounds : nat) (s : pkg B) :
  processID (final (Acquire rounds s)) = processID s.
Proof.
  revert s. induction rounds as [|n IH]; intros s; [reflexivity |].
  cbn [Acquire]. unfold bind, read, time_Sleep, final in *.
  destruct (tryAcquire_outcome s) as (calls & l & b & _ & _ & _ & _ & Id).
  unfold final in Id.
  destruct (tryAcquire s) as [[[] s1] t1]. cbn in Id |- *.
  specialize (IH s1). destruct (Acquire n s1) as [[[] s2] t2]. cbn in IH |- *.
  congruence.
Qed.

(** No step of the process assigns [processID]. *)
Lemma step_processID (s s' : pkg B) : step s s' -> processID s' = processID s.
Proof.
  intros St. destruct St as [s|s|f s Hf|s|n s|hb to op b s]; try reflexivity.
  - rewrite Run_final. destruct (lead s); [apply Hf | reflexivity].
  - destruct (tryAcquire_outcome s) as (? & ? & ? & _ & _ & _ & _ & Id).
    exact Id.
  - apply Acquire_processID.
Qed.

Lemma reachable_processID (s0 s : pkg B) :
  reachable s0 s -> processID s = processID s0.
Proof.
  induction 1 as [|s s' _ IH St]; [reflexivity |].
  rewrite (step_processID _ _ St). exact IH.
Qed.

(** C9. In every state the process reaches after its initialisation with
    the identifier [u], whatever the host has configured, [ProcessID()]
    returns the rendering of [u], which is not the empty string, and changes
    nothing.  Hence every claim an attempt writes carries that non-empty
    identity, for which the test "no leader" of [tryAcquire] is false. *)
Theorem ProcessID_constant_and_not_empty
  (u : uuid.UUID) (c : time.clock) (heartBeat timeout : time.Duration)
  (op : Operation B) (b : B) (s : pkg B) :
  reachable (configure heartBeat timeout op b (init u c)) s ->
  result (ProcessID s) = uuid.String u /\
  result (ProcessID s) <> "" /\
  final (ProcessID s) = s /\
  events (ProcessID s) = [] /\
  forall id err,
    In (CallTryAcquire id err) (events (tryAcquire s)) ->
    id = result (ProcessID s) /\ id <> "" /\ no_leader id = false.
Proof.
  intros R. apply reachable_processID in R.
  change (processID s = uuid.String u) in R.
  pose proof (uuid_String_not_empty u) as N.
  change (result (ProcessID s)) with (processID s).
  rewrite <- R in N |- *. clear R.
  do 4 (split; [first [reflexivity | exact N] |]).
  intros id err.
  attempt_cases s; intros HI; in_trace; repeat split; auto;
    unfold no_leader; apply String.eqb_neq; exact N.
Qed.

End Identity.


(** C5, as stated, fails: every call but [Op.Rollback] returns nil, the
    error of [Op.Rollback] is dropped, and the attempt ends with [lead]
    true. *)
Lemma rollback_error_keeps_lead :
  let r := tryAcquire rollback_fails in
  In (CallRollback (Some "rollback: connection lost")) (events r) /\
  returned_error (CallRollback (Some "rollback: connection lost")) = true /\
  lead (final r) = true /\
  ~ (forall e, In e (events r) -> returned_error e = true ->
               lead (final r) = false).
Proof.
  cbv zeta.
  assert (I : In (CallRollback (Some "rollback: connection lost"))
                (events (tryAcquire rollback_fails)))
    by (vm_compute; auto 10).
  repeat split; try assumption; try reflexivity.
  intros H. specialize (H _ I eq_refl). vm_compute in H. discriminate H.
Qed.

(** ** The backend [noop] *)

Lemma noop_always_succeeds (c : time.clock) (id : string) :
  @Begin _ noop c = (None, c) /\
  @Commit _ noop c = (None, c) /\
  @Rollback _ noop c = (None, c) /\
  @TryAcquire _ noop id c = (None, c).
Proof. repeat split. Qed.

(** C3, on the code.  [noop.Current] returns the empty string as the holder,
    not the identity of the process: under [noop] the claim appears vacant at
    every attempt, and the attempt takes the leadership as a new claim. *)
Theorem noop_Current_reports_no_holder (u : uuid.UUID) (c : time.clock) :
  let s := init u c in
  let t1 := time.reading c (time.calls c) in
  let t2 := time.reading c (S (time.calls c)) in
  fst (@Current _ noop c) = ("", t1, t2, None) /\
  "" <> result (ProcessID s) /\
  no_leader "" = true /\
  events (tryAcquire s) =
    [CallBegin None; CallCurrent "" t1 t2 None;
     CallTryAcquire (processID s) None; CallCommit None; CallRollback None;
     GoOnLeadChanged true].
Proof.
  cbv zeta. split; [reflexivity |].
  split; [intros E; symmetry in E; revert E; apply uuid_String_not_empty |].
  split; reflexivity.
Qed.

(** ** The scenarios of the specification *)

Example vacant_claim_is_taken :
  tryAcquire vacant_claim =
    (tt, process "P2" true (fake.healthy "P2" (at_second 0) (at_second 0)),
     [CallBegin None; CallCurrent "" (at_second 0) (at_second 0) None; CallTryAcquire "P2" None;
      CallCommit None; CallRollback None; GoOnLeadChanged true]).
Proof. reflexivity. Qed.

Example fresh_claim_is_left :
  tryAcquire fresh_claim =
    (tt, fresh_claim,
     [CallBegin None; CallCurrent "P1" (at_second (-10)) (at_second 0) None;
      CallRollback None]).
Proof. reflexivity. Qed.

Example stale_claim_is_stolen :
  tryAcquire stale_claim =
    (tt, process "P2" true (fake.healthy "P2" (at_second 0) (at_second 0)),
     [CallBegin None; CallCurrent "P1" (at_second (-30)) (at_second 0) None;
      CallTryAcquire "P2" None; CallCommit None; CallRollback None;
      GoOnLeadChanged true]).
Proof. reflexivity. Qed.

(** A claim renewed exactly [Timeout] ago is not stale yet. *)
Example claim_at_timeout_is_left :
  events (tryAcquire (process "P2" false
                        (fake.healthy "P1" (at_second (-25)) (at_second 0)))) =
    [CallBegin None; CallCurrent "P1" (at_second (-25)) (at_second 0) None;
     CallRollback None].
Proof. reflexivity. Qed.

Example current_failure_drops_lead :
  events (tryAcquire current_fails) =
    [CallBegin None; CallCurrent "P2" (at_second 0) (at_second 0) (Some "current: connection lost");
     CallRollback None; GoOnLeadChanged false] /\
  lead (final (tryAcquire current_fails)) = false.
Proof. split; reflexivity. Qed.

Example an_uuid_rendered :
  uuid.String an_uuid = "6ba7b810-9dad-41d1-80b4-00c04fd430c8".
Proof. reflexivity. Qed.

(** ** The hypotheses of the claims hold somewhere *)


Lemma lead_iff_tryAcquire_and_commit_succeed_witness :
  In (CallTryAcquire "P2" None) (events (tryAcquire vacant_claim)) /\
  "P2" = processID vacant_claim.
Proof.
  assert (HT : In (CallTryAcquire "P2" None) (events (tryAcquire vacant_claim)))
    by (vm_compute; auto).
  split; [exact HT |].
  apply (lead_iff_tryAcquire_and_commit_succeed vacant_claim "P2" None HT).
Defined.

Lemma error_before_rollback_leaves_not_leader_witness :
  In (CallCommit (Some "commit: conflict")) (events (tryAcquire commit_fails)) /\
  returned_error (CallCommit (Some "commit: conflict")) = true /\
  is_Rollback (CallCommit (Some "commit: conflict")) = false /\
  lead (final (tryAcquire commit_fails)) = false.
Proof.
  assert (HI : In (CallCommit (Some "commit: conflict"))
                  (events (tryAcquire commit_fails)))
    by (vm_compute; auto 10).
  split; [exact HI | split; [reflexivity | split; [reflexivity |]]].
  exact (proj1 (error_before_rollback_leaves_not_leader commit_fails _ HI
                  eq_refl eq_refl)).
Defined.

Lemma ProcessID_constant_and_not_empty_witness :
  reachable
    (configure (15 * time.Second) (25 * time.Second) fake.op
       (fake.healthy "" (at_second 0) (at_second 0)) (init an_uuid a_clock))
    (final (tryAcquire
       (configure (15 * time.Second) (25 * time.Second) fake.op
          (fake.healthy "" (at_second 0) (at_second 0)) (init an_uuid a_clock)))) /\
  result (ProcessID (final (tryAcquire
       (configure (15 * time.Second) (25 * time.Second) fake.op
          (fake.healthy "" (at_second 0) (at_second 0)) (init an_uuid a_clock))))) =
    uuid.String an_uuid.
Proof.
  assert (R : reachable
    (configure (15 * time.Second) (25 * time.Second) fake.op
       (fake.healthy "" (at_second 0) (at_second 0)) (init an_uuid a_clock))
    (final (tryAcquire
       (configure (15 * time.Second) (25 * time.Second) fake.op
          (fake.healthy "" (at_second 0) (at_second 0)) (init an_uuid a_clock)))))
    by (eapply reach_step; [apply reach_start | apply step_tryAcquire]).
  split; [exact R |].
  apply (ProcessID_constant_and_not_empty an_uuid a_clock _ _ _ _ _ R).
Defined.

Lemma rollback_after_commit_is_ignored_witness :
  In (CallTryAcquire "P2" None) (events (tryAcquire rollback_fails)) /\
  In (CallCommit None) (events (tryAcquire rollback_fails)) /\
  lead (final (tryAcquire rollback_fails)) = true.
Proof.
  assert (HT : In (CallTryAcquire "P2" None) (events (tryAcquire rollback_fails)))
    by (vm_compute; auto 10).
  assert (HC : In (CallCommit None) (events (tryAcquire rollback_fails)))
    by (vm_compute; auto 10).
  split; [exact HT | split; [exact HC |]].
  exact (proj1 (proj2 (proj2
           (rollback_after_commit_is_ignored rollback_fails "P2" HT HC)))).
Defined.

(** * Further properties of the package *)

(** ** The loop *)

Section Loop.

Context {B : Type}.

(** One round of the loop: an attempt, then a sleep of [HeartBeat]. *)
Lemma Acquire_round (n : nat) (s : pkg B) :
  Acquire (S n) s =
    (tt, final (Acquire n (final (tryAcquire s))),
     (events (tryAcquire s) ++
      Sleep (HeartBeat s) :: events (Acquire n (final (tryAcquire s))))%list).
Proof.
  cbn [Acquire]. unfold bind, read, time_Sleep, final, events.
  destruct (tryAcquire_path s) as (calls & l & b & _ & E). rewrite E.
  cbn [fst snd HeartBeat].
  destruct (Acquire n _) as [[[] s2] t2]. reflexivity.
Qed.

Lemma Acquire_round_final (n : nat) (s : pkg B) :
  final (Acquire (S n) s) = final (Acquire n (final (tryAcquire s))).
Proof. rewrite Acquire_round. reflexivity. Qed.

Lemma Acquire_round_events (n : nat) (s : pkg B) :
  events (Acquire (S n) s) =
    (events (tryAcquire s) ++
     Sleep (HeartBeat s) :: events (Acquire n (final (tryAcquire s))))%list.
Proof. rewrite Acquire_round. reflexivity. Qed.

(** An attempt changes the flag and the backend, nothing else. *)
Lemma tryAcquire_config (s : pkg B) :
  HeartBeat (final (tryAcquire s)) = HeartBeat s /\
  Timeout (final (tryAcquire s)) = Timeout s /\
  Op (final (tryAcquire s)) = Op s /\
  processID (final (tryAcquire s)) = processID s.
Proof.
  destruct (tryAcquire_path s) as (calls & l & b & _ & E). rewrite E.
  repeat split.
Qed.

Lemma count_app (p : event -> bool) (t1 t2 : trace) :
  count p (t1 ++ t2)%list = (count p t1 + count p t2)%nat.
Proof. unfold count. now rewrite filter_app, length_app. Qed.

Lemma sleeps_app (t1 t2 : trace) :
  sleeps (t1 ++ t2)%list = (sleeps t1 ++ sleeps t2)%list.
Proof.
  induction t1 as [|e t1 IH]; [reflexivity |].
  destruct e; cbn; now rewrite ?IH.
Qed.

Lemma notified_app (t1 t2 : trace) :
  notified (t1 ++ t2)%list = (notified t1 ++ notified t2)%list.
Proof.
  induction t1 as [|e t1 IH]; [reflexivity |].
  destruct e; cbn; now rewrite ?IH.
Qed.

Lemma last_cons (A : Type) (x d : A) (l : list A) : last (x :: l) d = last l x.
Proof.
  revert x d. induction l as [|y l IH]; intros x d; [reflexivity |].
  change (last (x :: y :: l) d) with (last (y :: l) d).
  now rewrite !IH.
Qed.

(** The calls of one attempt, counted. *)
Lemma tryAcquire_counts (s : pkg B) :
  let t := events (tryAcquire s) in
  sleeps t = [] /\
  count is_Begin t = 1%nat /\
  rollbacks t = count is_Begin_ok t /\
  count is_Current t = count is_Begin_ok t /\
  (writes t <= count is_Current_ok t)%nat /\
  count is_Commit t = count is_TryAcquire_ok t /\
  (count is_Commit_ok t = 1%nat <-> lead (final (tryAcquire s)) = true) /\
  (count is_Commit_ok t <= 1)%nat.
Proof.
  cbv zeta. unfold rollbacks, writes, count.
  attempt_cases s; repeat split; intros; try discriminate; auto.
Qed.

(** An attempt either leaves the flag as it was and starts no goroutine, or
    flips it and starts one with the new value. *)
Lemma tryAcquire_flips (s : pkg B) :
  let r := tryAcquire s in
  (lead (final r) = lead s /\ notified (events r) = []) \/
  (lead (final r) = negb (lead s) /\ notified (events r) = [lead (final r)]).
Proof.
  cbv zeta. attempt_cases s; auto.
Qed.

(** X2. [n] rounds of the loop make exactly [n] attempts, each opening with
    one call of [Op.Begin], and sleep [n] times, each time for the
    [HeartBeat] configured at the start; they leave [HeartBeat], [Timeout],
    [Op] and [processID] as they were. *)
Theorem Acquire_rounds (n : nat) (s : pkg B) :
  let r := Acquire n s in
  sleeps (events r) = repeat (HeartBeat s) n /\
  count is_Begin (events r) = n /\
  HeartBeat (final r) = HeartBeat s /\
  Timeout (final r) = Timeout s /\
  Op (final r) = Op s /\
  processID (final r) = processID s.
Proof.
  cbv zeta. revert s. induction n as [|n IH]; intros s.
  { repeat split. }
  rewrite Acquire_round_final, Acquire_round_events.
  destruct (IH (final (tryAcquire s))) as (S1 & C1 & H1 & T1 & O1 & P1).
  destruct (tryAcquire_config s) as (H0 & T0 & O0 & P0).
  destruct (tryAcquire_counts s) as (S0 & C0 & _).
  rewrite sleeps_app, count_app, S0, C0. cbn [sleeps app].
  change (count is_Begin (Sleep (HeartBeat s) :: ?t)) with (count is_Begin t).
  rewrite S1, C1, H1, T1, O1, P1, H0.
  repeat split; auto.
Qed.

(** X3. Over any number of rounds: [Op.Rollback] is called as many times as
    [Op.Begin] returned nil, and so is [Op.Current]; [Op.TryAcquire] is called
    at most as many times as [Op.Current] returned nil; [Op.Commit] is called
    as many times as [Op.TryAcquire] returned nil. *)
Theorem Acquire_call_counts (n : nat) (s : pkg B) :
  let t := events (Acquire n s) in
  rollbacks t = count is_Begin_ok t /\
  count is_Current t = count is_Begin_ok t /\
  (writes t <= count is_Current_ok t)%nat /\
  count is_Commit t = count is_TryAcquire_ok t.
Proof.
  cbv zeta. revert s. induction n as [|n IH]; intros s.
  { repeat split. apply le_n. }
  rewrite Acquire_round_events.
  destruct (IH (final (tryAcquire s))) as (R1 & C1 & W1 & M1).
  destruct (tryAcquire_counts s) as (_ & _ & R0 & C0 & W0 & M0 & _).
  change rollbacks with (count is_Rollback) in *.
  change writes with (count is_TryAcquire) in *.
  rewrite !count_app.
  repeat match goal with
  | |- context [count ?p (Sleep ?d :: ?t)] =>
      change (count p (Sleep d :: t)) with (count p t)
  end.
  repeat split; lia.
Qed.

(** X4. Over any number of rounds the values [OnLeadChanged] is started
    with alternate, beginning with the opposite of the flag at the start,
    and the flag at the end is the last of them (the flag at the start when
    there is none). *)
Theorem Acquire_notifications_alternate (n : nat) (s : pkg B) :
  let r := Acquire n s in
  alternates (lead s) (notified (events r)) /\
  lead (final r) = last (notified (events r)) (lead s).
Proof.
  cbv zeta. revert s. induction n as [|n IH]; intros s.
  { split; reflexivity. }
  rewrite Acquire_round_final, Acquire_round_events.
  destruct (IH (final (tryAcquire s))) as [A1 L1].
  rewrite notified_app. cbn [notified].
  destruct (tryAcquire_flips s) as [[F N] | [F N]]; rewrite N.
  - cbn [app]. rewrite <- F. auto.
  - cbn [app alternates]. rewrite last_cons. auto.
Qed.

End Loop.

(** ** One attempt *)

Section OneAttempt.

Context {B : Type}.

(** X5. What an attempt does to the backend and the state it ends in do not
    depend on the flag it starts with: the flag only decides whether
    [OnLeadChanged] is started. *)
Theorem tryAcquire_forgets_lead (l : bool) (s : pkg B) :
  final (tryAcquire (with_lead l s)) = final (tryAcquire s) /\
  backend_calls (events (tryAcquire (with_lead l s))) =
    backend_calls (events (tryAcquire s)).
Proof.
  destruct s as [hb to op id l0 b0].
  unfold with_lead. unfold_go. cbn.
  next_call; [destruct l0, l; split; reflexivity |].
  cbn. next_call; cbn; [next_call; cbn; destruct l0, l; split; reflexivity |].
  match goal with
  | |- context [no_leader ?c] =>
      match goal with
      | |- context [leader_timeout ?n ?lb _] =>
          destruct (no_leader c), (already_leader c id),
            (leader_timeout n lb to)
      end
  end; unfold_go; cbn.
  all: try (next_call; cbn; destruct l0, l; split; reflexivity).
  all: next_call; cbn;
    [next_call; cbn; destruct l0, l; split; reflexivity |].
  all: next_call; cbn;
    [next_call; cbn; destruct l0, l; split; reflexivity |].
  all: next_call; cbn; destruct l0, l; split; reflexivity.
Qed.


(** X7. After an attempt, [Lead()] returns true exactly when [Op.Commit]
    returned nil in that attempt, and [Run f] then runs [f] and returns true;
    otherwise [Run f] returns false and does nothing. *)
Theorem Lead_and_Run_after_tryAcquire (f : M B unit) (s : pkg B) :
  let r := tryAcquire s in
  (result (Lead (final r)) = true <-> In (CallCommit None) (events r)) /\
  Run f (final r) =
    if result (Lead (final r))
    then (true, final (f (final r)), events (f (final r)))
    else (false, final r, []).
Proof.
  cbv zeta. split.
  - change (result (Lead (final (tryAcquire s))))
      with (lead (final (tryAcquire s))).
    attempt_cases s; split; intros HL; in_trace; auto 10; discriminate.
  - change (result (Lead (final (tryAcquire s))))
      with (lead (final (tryAcquire s))).
    generalize (final (tryAcquire s)). intros s1.
    unfold Run, Lead, bind, read, ret, final, events. cbn.
    destruct (lead s1); [| reflexivity].
    destruct (f s1) as [[[] s'] t]. cbn. now rewrite app_nil_r.
Qed.

End OneAttempt.

(** ** The loop on the backend [noop] *)

Lemma tryAcquire_noop (heartBeat timeout : time.Duration) (id : string)
  (l : bool) (c : time.clock) :
  tryAcquire (mkPkg heartBeat timeout noop id l c) =
    (tt, mkPkg heartBeat timeout noop id true (clock_after 2 c),
     ([CallBegin None;
       CallCurrent "" (time.reading c (time.calls c))
         (time.reading c (S (time.calls c))) None;
       CallTryAcquire id None; CallCommit None; CallRollback None] ++
      notification l true)%list).
Proof. destruct l; reflexivity. Qed.

(** X8. On the backend [noop], whatever the intervals, the identity and the
    clock: after one round or more the process is the leader, every round
    has written a claim, the clock has been read twice per round, and
    [OnLeadChanged] has been started once with true if the process was not
    the leader before, and not at all if it was. *)
Theorem Acquire_noop (n : nat) (heartBeat timeout : time.Duration)
  (id : string) (l : bool) (c : time.clock) :
  let r := Acquire (S n) (mkPkg heartBeat timeout noop id l c) in
  final r = mkPkg heartBeat timeout noop id true (clock_after (2 * S n) c) /\
  count is_Commit_ok (events r) = S n /\
  notified (events r) = if l then [] else [true].
Proof.
  cbv zeta. revert l c. induction n as [|n IH]; intros l c.
  { rewrite Acquire_round, tryAcquire_noop. destruct l; repeat split. }
  pose proof (f_equal final (tryAcquire_noop heartBeat timeout id l c)) as F0.
  pose proof (f_equal events (tryAcquire_noop heartBeat timeout id l c)) as E0.
  unfold final at 2 in F0. unfold events at 2 in E0. cbn [fst snd] in F0, E0.
  rewrite Acquire_round_final, Acquire_round_events, F0, E0.
  destruct (IH true (clock_after 2 c)) as (F & C & N).
  rewrite F, notified_app, count_app. cbn [notified].
  change (count is_Commit_ok (Sleep ?d :: ?t)) with (count is_Commit_ok t).
  rewrite C, N.
  split; [| split].
  - unfold clock_after. cbn [time.reading time.calls]. do 2 f_equal. lia.
  - rewrite count_app. destruct l; reflexivity.
  - rewrite notified_app. destruct l; reflexivity.
Qed.
